(** * Thermocouple calculator (GOST R 8.585-2001)

  A model of [thermocouple_calculator.h]: the type selector enumeration,
  the [uint8_t] selector parameter, the ranges documented in the header
  comment, the 26 per-type converters, the error hook and the
  cold-junction dispatcher [Thermocouple_Get_Temperature].

  The header declares the functions; it holds no function body and no
  coefficient table.  What the header fixes (enumeration, prototypes,
  documented ranges) is translated from it.  The bodies are modelled from
  the specification, and every such definition says so. *)

From Stdlib Require Import ZArith List Lia Bool Floats.
Import ListNotations.

Local Open Scope Z_scope.

(** ** Type selector (header lines 64-78 and 107) *)

Module Selector.

(** The anonymous [enum] of the header, one constructor per enumerator. *)
Inductive ThermocoupleType : Set :=
| Thermocouple_R
| Thermocouple_S
| Thermocouple_B
| Thermocouple_J
| Thermocouple_T
| Thermocouple_E
| Thermocouple_K
| Thermocouple_N
| Thermocouple_A1
| Thermocouple_A2
| Thermocouple_A3
| Thermocouple_L
| Thermocouple_M.

(** The enumerators in the order the header lists them. *)
Definition enumerators : list ThermocoupleType :=
  [ Thermocouple_R; Thermocouple_S; Thermocouple_B; Thermocouple_J;
    Thermocouple_T; Thermocouple_E; Thermocouple_K; Thermocouple_N;
    Thermocouple_A1; Thermocouple_A2; Thermocouple_A3; Thermocouple_L;
    Thermocouple_M ].

(** C numbers enumerators without an initialiser: the first is 0, each
    following one is its predecessor plus 1. *)
Fixpoint number_from (z : Z) (l : list ThermocoupleType)
  : list (ThermocoupleType * Z) :=
  match l with
  | [] => []
  | t :: r => (t, z) :: number_from (z + 1) r
  end.

Definition enum_values : list (ThermocoupleType * Z) :=
  number_from 0 enumerators.

(** The integer constant each enumerator stands for. *)
Definition ordinal (t : ThermocoupleType) : Z :=
  match t with
  | Thermocouple_R => 0
  | Thermocouple_S => 1
  | Thermocouple_B => 2
  | Thermocouple_J => 3
  | Thermocouple_T => 4
  | Thermocouple_E => 5
  | Thermocouple_K => 6
  | Thermocouple_N => 7
  | Thermocouple_A1 => 8
  | Thermocouple_A2 => 9
  | Thermocouple_A3 => 10
  | Thermocouple_L => 11
  | Thermocouple_M => 12
  end.

(** [uint8_t]: an 8-bit unsigned integer, carried as a [Z] in [0, 256). *)
Definition is_uint8 (u : Z) : Prop := 0 <= u < 2 ^ 8.

(** The conversion C applies to an integer argument passed for the
    [uint8_t Type] parameter: reduction modulo 2^8. *)
Definition uint8_of_int (z : Z) : Z := z mod 2 ^ 8.

(** A selector value is known when it is the constant of an enumerator. *)
Definition known_selector (u : Z) : bool :=
  existsb (Z.eqb u) (map ordinal enumerators).

(** The enumerator a selector value stands for, as a [switch] over the
    enumeration's constants finds it. *)
Definition of_ordinal (u : Z) : option ThermocoupleType :=
  if u <? 0 then None else nth_error enumerators (Z.to_nat u).

End Selector.
Export Selector.

(** ** Documented ranges (header comment, lines 24-52)

  The header documents, per type, a temperature range and a TEMF range
  together with the temperature span the TEMF range belongs to.  Values
  are kept exact, in thousandths: millidegrees Celsius for temperatures, microvolts for
  TEMF. *)

Module Documented.

Record Range : Set := {
  t_min : Z;        (* temperature range, lower end *)
  t_max : Z;        (* temperature range, upper end *)
  temf_min : Z;     (* TEMF range, lower end *)
  temf_max : Z;     (* TEMF range, upper end *)
  temf_t_min : Z;   (* temperature the lower TEMF end is given for *)
  temf_t_max : Z    (* temperature the upper TEMF end is given for *)
}.

Definition range (t : ThermocoupleType) : Range :=
  match t with
  | Thermocouple_R  => Build_Range (-50000) 1768100 (-225) 21103 (-50000) 1768100
  | Thermocouple_S  => Build_Range (-50000) 1768100 (-235) 18694 (-50000) 1768100
  | Thermocouple_B  => Build_Range 0 1820000 291 13820 250000 1820000
  | Thermocouple_J  => Build_Range (-210000) 1200000 (-8095) 69553 (-210000) 1200000
  | Thermocouple_T  => Build_Range (-270000) 400000 (-5603) 20872 (-200000) 400000
  | Thermocouple_E  => Build_Range (-270000) 1000000 (-8825) 76373 (-200000) 1000000
  | Thermocouple_K  => Build_Range (-270000) 1372000 (-5891) 54886 (-200000) 1372000
  | Thermocouple_N  => Build_Range (-270000) 1300000 (-3990) 47513 (-200000) 1300000
  | Thermocouple_A1 => Build_Range 0 2500000 0 33640 0 2500000
  | Thermocouple_A2 => Build_Range 0 1800000 0 27232 0 1800000
  | Thermocouple_A3 => Build_Range 0 1800000 0 26773 0 1800000
  | Thermocouple_L  => Build_Range (-200000) 800000 (-9488) 66466 (-200000) 800000
  | Thermocouple_M  => Build_Range (-200000) 100000 (-6154) 4722 (-200000) 100000
  end.

(** [x] (millidegrees) lies in the documented temperature range of [t]. *)
Definition in_temperature_range (t : ThermocoupleType) (x : Z) : Prop :=
  t_min (range t) <= x <= t_max (range t).

(** [x] (millidegrees) lies in the temperature span the TEMF range of [t] is
    documented for. *)
Definition in_temf_span (t : ThermocoupleType) (x : Z) : Prop :=
  temf_t_min (range t) <= x <= temf_t_max (range t).

End Documented.

(** ** Effects

  The only effect in the interface is the call of the error hook
  [void Thermocouple_hardfault(void)].  A computation threads a world that
  holds whatever the hook body writes to, and a ghost counter of the
  hook's invocations.  A call either returns a value or never returns,
  because the hook stopped the process. *)

Module Effects.

Record World (Env : Type) : Type := {
  hardfault_calls : nat;   (* ghost: invocations of the hook so far *)
  env : Env                (* the hook body's side-effect target *)
}.
Arguments Build_World {Env} _ _.
Arguments hardfault_calls {Env} _.
Arguments env {Env} _.

(** How a call ends: it returns [a] in world [w], or the process is
    stopped in world [w] and nothing is returned. *)
Inductive Outcome (Env A : Type) : Type :=
| Returned (a : A) (w : World Env)
| Halted (w : World Env).
Arguments Returned {Env A} _ _.
Arguments Halted {Env A} _.

Definition M (Env A : Type) : Type := World Env -> Outcome Env A.

Definition ret {Env A : Type} (a : A) : M Env A := fun w => Returned a w.

Definition bind {Env A B : Type} (m : M Env A) (k : A -> M Env B) : M Env B :=
  fun w =>
    match m w with
    | Returned a w' => k a w'
    | Halted w' => Halted w'
    end.

(** The value a call returns, if it returns, and the world it leaves. *)
Definition result {Env A : Type} (m : M Env A) (w : World Env) : option A :=
  match m w with
  | Returned a _ => Some a
  | Halted _ => None
  end.

Definition after {Env A : Type} (m : M Env A) (w : World Env) : World Env :=
  match m w with
  | Returned _ w' => w'
  | Halted w' => w'
  end.

(** A call is silent when it returns and leaves the world as it found it:
    it does not invoke the hook and does not stop the process. *)
Definition silent {Env A : Type} (m : M Env A) : Prop :=
  forall w : World Env, exists a : A, m w = Returned a w.

(** Modelled from the spec: what a body of the hook may do, the body being
    missing from the header.  It writes to its target and then either gives
    control back (log, no-op) or stops the process (halt). *)
Inductive HookEnd (Env : Type) : Type :=
| Resumes (e : Env)
| Stops (e : Env).
Arguments Resumes {Env} _.
Arguments Stops {Env} _.

(** The world one call of the hook leaves when its body wrote [e]. *)
Definition faulted {Env : Type} (e : Env) (w : World Env) : World Env :=
  Build_World (S (hardfault_calls w)) e.

(** Modelled from the spec: one call of the hook.  It is a notification:
    no value comes back, and the call may not come back at all. *)
Definition invoke_hook {Env : Type} (body : Env -> HookEnd Env) : M Env unit :=
  fun w =>
    match body (env w) with
    | Resumes e => Returned tt (faulted e w)
    | Stops e => Halted (faulted e w)
    end.

End Effects.
Export Effects.

Notation "x <- c1 ;; c2" := (bind c1 (fun x => c2))
  (at level 61, c1 at next level, right associativity).
Notation "c1 ;;; c2" := (bind c1 (fun _ => c2))
  (at level 61, right associativity).

(** ** Coefficient tables

    The header holds no table.  The shape of one is taken from the
    specification; the numbers are parameters of the engine below. *)

Module Tables.

Local Open Scope float_scope.

(** Modelled from the spec: the correction term [c * exp(-d*(x-e)^2)] that
    some coefficient sets add to their polynomial; its three numbers. *)
Record Correction : Set := {
  corr_c : float;
  corr_d : float;
  corr_e : float
}.

(** Modelled from the spec: a coefficient set, missing from the header.  An
    ordered sequence of polynomial coefficients (lowest power first), an
    optional correction term and the sub-range the set belongs to. *)
Record CoefficientSet : Set := {
  lower_bound : float;
  upper_bound : float;
  coefficients : list float;
  correction : option Correction
}.

(** Modelled from the spec: the coefficient sets of one type and one
    direction, in increasing order of sub-range; never empty. *)
Record Table : Set := {
  first_set : CoefficientSet;
  more_sets : list CoefficientSet
}.

Inductive Direction : Set :=
| TemperatureToTEMF
| TEMFToTemperature.

Definition sets (tb : Table) : list CoefficientSet :=
  first_set tb :: more_sets tb.

(** Modelled from the spec: selection of the coefficient set by boundary
    comparison (lower end inclusive, upper end exclusive).  No range check
    is made: an input below the first sub-range uses the first set and an
    input that no comparison accepts (above the last sub-range, or NaN)
    uses the last one, so the nearest set extrapolates. *)
Fixpoint select_from (cur : CoefficientSet) (rest : list CoefficientSet)
  (x : float) : CoefficientSet :=
  match rest with
  | [] => cur
  | next :: rest' =>
      if x <? upper_bound cur then cur else select_from next rest' x
  end.

Definition select (tb : Table) (x : float) : CoefficientSet :=
  select_from (first_set tb) (more_sets tb) x.

(** Modelled from the spec: the power series [sum coeff[i] * x^i], by
    Horner's rule. *)
Fixpoint horner (cs : list float) (x : float) : float :=
  match cs with
  | [] => 0
  | c :: cs' => c + x * horner cs' x
  end.

(** Modelled from the spec: one segment, polynomial plus the correction
    term where the set has one.  [exp] is the exponential of [math.h]. *)
Definition evaluate (exp : float -> float) (cs : CoefficientSet) (x : float)
  : float :=
  match correction cs with
  | None => horner (coefficients cs) x
  | Some k =>
      horner (coefficients cs) x
      + corr_c k * exp (- (corr_d k * ((x - corr_e k) * (x - corr_e k))))
  end.

End Tables.
Export Tables.

(** ** The 26 converters (header lines 80-105)

    The header gives the prototypes: every converter is
    [double f(double)].  The parameters of the section are what the header
    leaves out. *)

Section Converters.

Local Open Scope float_scope.

Context {Env : Type}.

(** [exp] of [math.h], and the coefficient tables. *)
Variable exp : float -> float.
Variable table : ThermocoupleType -> Direction -> Table.

(** Modelled from the spec: the body of a converter, missing from the
    header.  It selects the coefficient set of the input's sub-range and
    evaluates it; it checks no range, signals nothing and has no side
    effect. *)
Definition convert (t : ThermocoupleType) (d : Direction) (x : float)
  : M Env float :=
  ret (evaluate exp (select (table t d) x) x).

Definition Thermocouple_temperature_to_TEMF (t : ThermocoupleType)
  (Temperature : float) : M Env float :=
  convert t TemperatureToTEMF Temperature.

Definition Thermocouple_TEMF_to_temperature (t : ThermocoupleType)
  (TEMF : float) : M Env float :=
  convert t TEMFToTemperature TEMF.

(** The 26 functions the header declares, in its order. *)
Definition Thermocouple_temperature_to_TEMF_R := Thermocouple_temperature_to_TEMF Thermocouple_R.
Definition Thermocouple_TEMF_to_temperature_R := Thermocouple_TEMF_to_temperature Thermocouple_R.
Definition Thermocouple_temperature_to_TEMF_S := Thermocouple_temperature_to_TEMF Thermocouple_S.
Definition Thermocouple_TEMF_to_temperature_S := Thermocouple_TEMF_to_temperature Thermocouple_S.
Definition Thermocouple_temperature_to_TEMF_B := Thermocouple_temperature_to_TEMF Thermocouple_B.
Definition Thermocouple_TEMF_to_temperature_B := Thermocouple_TEMF_to_temperature Thermocouple_B.
Definition Thermocouple_temperature_to_TEMF_J := Thermocouple_temperature_to_TEMF Thermocouple_J.
Definition Thermocouple_TEMF_to_temperature_J := Thermocouple_TEMF_to_temperature Thermocouple_J.
Definition Thermocouple_temperature_to_TEMF_T := Thermocouple_temperature_to_TEMF Thermocouple_T.
Definition Thermocouple_TEMF_to_temperature_T := Thermocouple_TEMF_to_temperature Thermocouple_T.
Definition Thermocouple_temperature_to_TEMF_E := Thermocouple_temperature_to_TEMF Thermocouple_E.
Definition Thermocouple_TEMF_to_temperature_E := Thermocouple_TEMF_to_temperature Thermocouple_E.
Definition Thermocouple_temperature_to_TEMF_K := Thermocouple_temperature_to_TEMF Thermocouple_K.
Definition Thermocouple_TEMF_to_temperature_K := Thermocouple_TEMF_to_temperature Thermocouple_K.
Definition Thermocouple_temperature_to_TEMF_N := Thermocouple_temperature_to_TEMF Thermocouple_N.
Definition Thermocouple_TEMF_to_temperature_N := Thermocouple_TEMF_to_temperature Thermocouple_N.
Definition Thermocouple_temperature_to_TEMF_A1 := Thermocouple_temperature_to_TEMF Thermocouple_A1.
Definition Thermocouple_TEMF_to_temperature_A1 := Thermocouple_TEMF_to_temperature Thermocouple_A1.
Definition Thermocouple_temperature_to_TEMF_A2 := Thermocouple_temperature_to_TEMF Thermocouple_A2.
Definition Thermocouple_TEMF_to_temperature_A2 := Thermocouple_TEMF_to_temperature Thermocouple_A2.
Definition Thermocouple_temperature_to_TEMF_A3 := Thermocouple_temperature_to_TEMF Thermocouple_A3.
Definition Thermocouple_TEMF_to_temperature_A3 := Thermocouple_TEMF_to_temperature Thermocouple_A3.
Definition Thermocouple_temperature_to_TEMF_L := Thermocouple_temperature_to_TEMF Thermocouple_L.
Definition Thermocouple_TEMF_to_temperature_L := Thermocouple_TEMF_to_temperature Thermocouple_L.
Definition Thermocouple_temperature_to_TEMF_M := Thermocouple_temperature_to_TEMF Thermocouple_M.
Definition Thermocouple_TEMF_to_temperature_M := Thermocouple_TEMF_to_temperature Thermocouple_M.

End Converters.

(** ** The dispatcher and the hook (header lines 106-107)

    The hook is [void Thermocouple_hardfault(void)] and the dispatcher is
    [double f(double, double, uint8_t)].  The body of the hook can be
    overridden; it and the converters the dispatcher calls are parameters
    of the section. *)

Section Engine.

Local Open Scope float_scope.

(** What the body of the hook writes to, and the body itself. *)
Context {Env : Type}.
Variable hardfault_body : Env -> HookEnd Env.

(** The value the dispatcher returns for an unknown selector. *)
Variable sentinel : float.

(** The converter pair of each type, as the dispatcher calls it. *)
Variable temperature_to_TEMF : ThermocoupleType -> float -> M Env float.
Variable TEMF_to_temperature : ThermocoupleType -> float -> M Env float.

Definition Thermocouple_hardfault : M Env unit :=
  invoke_hook hardfault_body.

(** Modelled from the spec: the body of the dispatcher, missing from the
    header.  An unknown selector invokes the hook and returns the sentinel;
    a known one converts the cold-junction temperature to TEMF, adds it to
    the measured TEMF and converts the sum back with the same type.
    [Type_] is the value of the [uint8_t Type] parameter. *)
Definition Thermocouple_Get_Temperature
  (Temperature_cold_junior TEMF : float) (Type_ : Z) : M Env float :=
  match of_ordinal Type_ with
  | None =>
      Thermocouple_hardfault ;;;
      ret sentinel
  | Some t =>
      TEMF_cold_junior <- temperature_to_TEMF t Temperature_cold_junior ;;
      TEMF_to_temperature t (TEMF + TEMF_cold_junior)
  end.

(** A C caller passes an integer; the prototype converts it to [uint8_t]. *)
Definition call_Get_Temperature
  (Temperature_cold_junior TEMF : float) (arg : Z) : M Env float :=
  Thermocouple_Get_Temperature Temperature_cold_junior TEMF (uint8_of_int arg).

End Engine.

(** ** A concrete engine, to run the model

    A fault flag for the hook to set, a truncated series for [exp] and one
    two-segment linear table (1/32 mV per degree) for every type. *)

Module Sample.

Local Open Scope float_scope.

Definition Env : Type := bool.

(** A hook that raises the flag and gives control back. *)
Definition hardfault_body (flag : bool) : HookEnd bool := Resumes true.

(** A hook that raises the flag and stops the process. *)
Definition halting_body (flag : bool) : HookEnd bool := Stops true.

Definition sentinel : float := nan.

Fixpoint series (n : nat) (k x : float) : float :=
  match n with
  | O => 1
  | S n' => 1 + x / k * series n' (k + 1) x
  end.

Definition exp (x : float) : float := series 24 1 x.

Definition linear (lo hi slope : float) : CoefficientSet :=
  {| lower_bound := lo; upper_bound := hi;
     coefficients := [0; slope]; correction := None |}.

Definition table (t : ThermocoupleType) (d : Direction) : Table :=
  match d with
  | TemperatureToTEMF =>
      {| first_set := linear (-256) 0 0.03125;
         more_sets := [linear 0 2048 0.03125] |}
  | TEMFToTemperature =>
      {| first_set := linear (-8) 0 32;
         more_sets := [linear 0 64 32] |}
  end.

Definition temperature_to_TEMF : ThermocoupleType -> float -> M Env float :=
  Thermocouple_temperature_to_TEMF exp table.

Definition TEMF_to_temperature : ThermocoupleType -> float -> M Env float :=
  Thermocouple_TEMF_to_temperature exp table.

(** A converter that reports every call through the hook. *)
Definition reporting_to_TEMF (t : ThermocoupleType) (x : float) : M Env float :=
  invoke_hook hardfault_body ;;;
  temperature_to_TEMF t x.

Definition Get_Temperature : float -> float -> Z -> M Env float :=
  Thermocouple_Get_Temperature hardfault_body sentinel
    temperature_to_TEMF TEMF_to_temperature.

(** The same engine with the halting hook. *)
Definition Get_Temperature_halting : float -> float -> Z -> M Env float :=
  Thermocouple_Get_Temperature halting_body sentinel
    temperature_to_TEMF TEMF_to_temperature.

(** The same engine with the reporting converter. *)
Definition Get_Temperature_reporting : float -> float -> Z -> M Env float :=
  Thermocouple_Get_Temperature hardfault_body sentinel
    reporting_to_TEMF TEMF_to_temperature.

Definition start : World Env :=
  {| hardfault_calls := 0; env := false |}.

End Sample.

(** ** Facts about the selector *)

Section SelectorFacts.

Lemma enumerators_complete (t : ThermocoupleType) : In t enumerators.
Proof. destruct t; simpl; tauto. Qed.

Lemma of_ordinal_ordinal (t : ThermocoupleType) :
  of_ordinal (ordinal t) = Some t.
Proof. destruct t; reflexivity. Qed.

Lemma small_selector_cases (u : Z) :
  0 <= u <= 12 ->
  u = 0 \/ u = 1 \/ u = 2 \/ u = 3 \/ u = 4 \/ u = 5 \/ u = 6 \/
  u = 7 \/ u = 8 \/ u = 9 \/ u = 10 \/ u = 11 \/ u = 12.
Proof. lia. Qed.

Lemma of_ordinal_known (u : Z) :
  0 <= u <= 12 -> exists t, of_ordinal u = Some t /\ ordinal t = u.
Proof.
  intros Hu.
  destruct (small_selector_cases u Hu) as
    [E|[E|[E|[E|[E|[E|[E|[E|[E|[E|[E|[E|E]]]]]]]]]]]]; subst u;
    eexists; split; reflexivity.
Qed.

Lemma of_ordinal_unknown (u : Z) :
  ~ 0 <= u <= 12 -> of_ordinal u = None.
Proof.
  intros Hu. unfold of_ordinal.
  destruct (Z.ltb_spec u 0) as [Hneg | Hpos]; [reflexivity |].
  apply nth_error_None. simpl length. lia.
Qed.

Lemma of_ordinal_Some_range (u : Z) (t : ThermocoupleType) :
  of_ordinal u = Some t -> 0 <= u <= 12 /\ ordinal t = u.
Proof.
  intros Hsome.
  assert (Hu : 0 <= u <= 12).
  { destruct (Z_le_dec 0 u) as [H0 | H0]; [destruct (Z_le_dec u 12) as [H1 | H1] |];
      try lia; rewrite of_ordinal_unknown in Hsome by lia; discriminate. }
  split; [exact Hu |].
  destruct (of_ordinal_known u Hu) as (t' & Ht' & Ho).
  congruence.
Qed.

Lemma known_selector_small (u : Z) :
  known_selector u = true <-> 0 <= u <= 12.
Proof.
  unfold known_selector. rewrite existsb_exists. split.
  - intros (k & Hk & Heq). apply Z.eqb_eq in Heq. subst k.
    apply in_map_iff in Hk. destruct Hk as (t & Ht & _).
    subst u. destruct t; simpl; lia.
  - intros Hu. destruct (of_ordinal_known u Hu) as (t & _ & Ho).
    exists u. split; [| apply Z.eqb_refl].
    rewrite <- Ho. apply in_map, enumerators_complete.
Qed.

Lemma known_selector_of_ordinal (u : Z) :
  known_selector u = false <-> of_ordinal u = None.
Proof.
  split.
  - intros Hk. apply of_ordinal_unknown. intros Hu.
    apply known_selector_small in Hu. congruence.
  - intros Hn. destruct (known_selector u) eqn:Hk; [| reflexivity].
    apply known_selector_small in Hk.
    destruct (of_ordinal_known u Hk) as (t & Ht & _). congruence.
Qed.

End SelectorFacts.

(** ** Facts about the coefficient tables *)

Section TableFacts.

Lemma select_from_In (rest : list CoefficientSet) :
  forall (cur : CoefficientSet) (x : float),
    In (select_from cur rest x) (cur :: rest).
Proof.
  induction rest as [| next rest IH]; intros cur x; simpl.
  - left. reflexivity.
  - destruct (PrimFloat.ltb x (upper_bound cur)).
    + left. reflexivity.
    + right. apply IH.
Qed.

Lemma select_In (tb : Table) (x : float) : In (select tb x) (sets tb).
Proof. apply select_from_In. Qed.

Lemma select_single (cs : CoefficientSet) (x : float) :
  select {| first_set := cs; more_sets := [] |} x = cs.
Proof. reflexivity. Qed.

End TableFacts.

(** ** Facts about the dispatcher, whatever the converters and the hook *)

Section DispatcherFacts.

Local Open Scope float_scope.

Context {Env : Type}.
Variable hardfault_body : Env -> HookEnd Env.
Variable sentinel : float.
Variable temperature_to_TEMF : ThermocoupleType -> float -> M Env float.
Variable TEMF_to_temperature : ThermocoupleType -> float -> M Env float.

Local Abbreviation Get_Temperature :=
  (Thermocouple_Get_Temperature hardfault_body sentinel
     temperature_to_TEMF TEMF_to_temperature).

(** The dispatcher on a known selector: the two converter calls of the
    selected type, and no call of the hook of its own. *)
Lemma Get_Temperature_known (cj emf : float) (u : Z) (t : ThermocoupleType) :
  of_ordinal u = Some t ->
  Get_Temperature cj emf u =
    (e <- temperature_to_TEMF t cj ;; TEMF_to_temperature t (emf + e)).
Proof.
  intros Ht. unfold Thermocouple_Get_Temperature. rewrite Ht. reflexivity.
Qed.

(** The dispatcher on an unknown selector: the hook, then the sentinel. *)
Lemma Get_Temperature_unknown (cj emf : float) (u : Z) :
  of_ordinal u = None ->
  Get_Temperature cj emf u = (invoke_hook hardfault_body ;;; ret sentinel).
Proof.
  intros Hn. unfold Thermocouple_Get_Temperature. rewrite Hn. reflexivity.
Qed.

Lemma silent_bind {A B : Type} (m : M Env A) (k : A -> M Env B) :
  silent m -> (forall a, silent (k a)) -> silent (bind m k).
Proof.
  intros Hm Hk w. destruct (Hm w) as (a & Ha). destruct (Hk a w) as (b & Hb).
  exists b. unfold bind. rewrite Ha. exact Hb.
Qed.


End DispatcherFacts.

(** ** Facts about the engine with the modelled converters *)

Section EngineFacts.

Local Open Scope float_scope.

Context {Env : Type}.
Variable hardfault_body : Env -> HookEnd Env.
Variable sentinel : float.
Variable exp : float -> float.
Variable table : ThermocoupleType -> Direction -> Table.

Local Abbreviation temperature_to_TEMF :=
  (@Thermocouple_temperature_to_TEMF Env exp table).
Local Abbreviation TEMF_to_temperature :=
  (@Thermocouple_TEMF_to_temperature Env exp table).
Local Abbreviation Get_Temperature :=
  (Thermocouple_Get_Temperature hardfault_body sentinel
     temperature_to_TEMF TEMF_to_temperature).

(** A modelled converter returns a value and leaves the world as it found
    it. *)
Lemma convert_run (t : ThermocoupleType) (d : Direction) (x : float)
  (w : World Env) :
  convert exp table t d x w =
    Returned (evaluate exp (select (table t d) x) x) w.
Proof. reflexivity. Qed.

Lemma convert_silent (t : ThermocoupleType) (d : Direction) (x : float) :
  silent (@convert Env exp table t d x).
Proof. intros w. eexists. apply convert_run. Qed.

(** C1: for every valid selector (ordinal 0..12, naming type [t]) and all
    doubles, the dispatcher returns what the type's TEMF-to-temperature
    converter returns on the measured TEMF plus the TEMF the type's
    temperature-to-TEMF converter gives for the cold-junction temperature. *)
Theorem Get_Temperature_compensates (cj emf : float) (u : Z) (w : World Env) :
  0 <= u <= 12 ->
  exists t : ThermocoupleType,
    of_ordinal u = Some t /\ ordinal t = u /\
    exists e r : float,
      result (temperature_to_TEMF t cj) w = Some e /\
      result (TEMF_to_temperature t (emf + e)) w = Some r /\
      result (Get_Temperature cj emf u) w = Some r.
Proof.
  intros Hu.
  destruct (of_ordinal_known u Hu) as (t & Ht & Ho).
  exists t. split; [exact Ht |]. split; [exact Ho |].
  exists (evaluate exp (select (table t TemperatureToTEMF) cj) cj).
  eexists. split; [reflexivity |]. split; [reflexivity |].
  rewrite (Get_Temperature_known hardfault_body sentinel
             temperature_to_TEMF TEMF_to_temperature cj emf u t Ht).
  reflexivity.
Qed.

End EngineFacts.

(** ** The interface the header fixes *)

Section InterfaceFacts.

(** C8: the selector enumeration has exactly 13 enumerators, in the order
    R, S, B, J, T, E, K, N, A1, A2, A3, L, M, and C's numbering gives them
    the consecutive constants 0..12 (Thermocouple_R = 0, ...,
    Thermocouple_M = 12). *)
Theorem enumeration_has_13_consecutive_ordinals :
  length enumerators = 13%nat /\
  NoDup enumerators /\
  (forall t : ThermocoupleType, In t enumerators) /\
  enum_values =
    [ (Thermocouple_R, 0); (Thermocouple_S, 1); (Thermocouple_B, 2);
      (Thermocouple_J, 3); (Thermocouple_T, 4); (Thermocouple_E, 5);
      (Thermocouple_K, 6); (Thermocouple_N, 7); (Thermocouple_A1, 8);
      (Thermocouple_A2, 9); (Thermocouple_A3, 10); (Thermocouple_L, 11);
      (Thermocouple_M, 12) ] /\
  enum_values = map (fun t => (t, ordinal t)) enumerators /\
  map ordinal enumerators = [0; 1; 2; 3; 4; 5; 6; 7; 8; 9; 10; 11; 12] /\
  (forall t : ThermocoupleType,
      0 <= ordinal t <= 12 /\ of_ordinal (ordinal t) = Some t).
Proof.
  split; [reflexivity |].
  split; [repeat constructor; simpl; intuition discriminate |].
  split; [exact enumerators_complete |].
  split; [reflexivity |].
  split; [reflexivity |].
  split; [reflexivity |].
  intros t. split; [destruct t; simpl; lia | apply of_ordinal_ordinal].
Qed.

(** C9: the selector parameter is a [uint8_t].  Whatever integer a caller
    passes, the value that reaches the dispatcher lies in 0..255 (a value
    already in that range arrives unchanged), and among those values the
    unknown selectors are exactly 13..255. *)
Theorem selector_is_uint8 :
  (forall arg : Z, is_uint8 (uint8_of_int arg)) /\
  (forall u : Z, is_uint8 u -> uint8_of_int u = u) /\
  (forall u : Z, is_uint8 u ->
     (known_selector u = false <-> 13 <= u <= 255) /\
     (of_ordinal u = None <-> 13 <= u <= 255)).
Proof.
  split; [| split].
  - intros arg. unfold is_uint8, uint8_of_int.
    apply Z.mod_pos_bound. reflexivity.
  - intros u Hu. unfold uint8_of_int. apply Z.mod_small. exact Hu.
  - intros u Hu. unfold is_uint8 in Hu. change (2 ^ 8) with 256 in Hu.
    assert (Hk : known_selector u = false <-> 13 <= u <= 255).
    { split.
      - intros Hk.
        assert (Hn : ~ 0 <= u <= 12)
          by (intros Hs; apply known_selector_small in Hs; congruence).
        lia.
      - intros Hr. destruct (known_selector u) eqn:Hk; [| reflexivity].
        apply known_selector_small in Hk. lia. }
    split; [exact Hk |].
    rewrite <- known_selector_of_ordinal. exact Hk.
Qed.

(** For T, E, K and N the header documents temperatures from -270 degrees
    and gives the TEMF range for -200 degrees upward: a temperature in
    [-270, -200) is in the documented temperature range and outside the
    span the TEMF range is documented for. *)
Lemma documented_temf_span_starts_at_minus_200 (t : ThermocoupleType) :
  In t [Thermocouple_T; Thermocouple_E; Thermocouple_K; Thermocouple_N] ->
  Documented.t_min (Documented.range t) = -270000 /\
  Documented.temf_t_min (Documented.range t) = -200000 /\
  forall x : Z, -270000 <= x < -200000 ->
    Documented.in_temperature_range t x /\ ~ Documented.in_temf_span t x.
Proof.
  intros Ht.
  unfold Documented.in_temperature_range, Documented.in_temf_span.
  simpl in Ht.
  destruct Ht as [E | [E | [E | [E | []]]]]; subst t; simpl;
    (split; [reflexivity | split; [reflexivity | intros x Hx; lia]]).
Qed.

End InterfaceFacts.

(** ** Runs of the concrete engine *)

Section SampleRuns.

Local Open Scope float_scope.

Example sample_K_zero_measured :
  Sample.Get_Temperature 25 0 6 Sample.start = Returned 25 Sample.start.
Proof. reflexivity. Qed.

Example sample_K_one_millivolt :
  Sample.Get_Temperature 25 1 6 Sample.start = Returned 57 Sample.start.
Proof. reflexivity. Qed.

Example sample_unknown_selector :
  Sample.Get_Temperature 25 0 13 Sample.start =
    Returned nan {| hardfault_calls := 1; env := true |}.
Proof. reflexivity. Qed.

Example sample_unknown_selector_halting :
  Sample.Get_Temperature_halting 25 0 13 Sample.start =
    Halted {| hardfault_calls := 1; env := true |}.
Proof. reflexivity. Qed.

Example sample_known_selector_halting :
  Sample.Get_Temperature_halting 25 0 6 Sample.start =
    Returned 25 Sample.start.
Proof. reflexivity. Qed.

Example sample_call_wraps_256 :
  call_Get_Temperature Sample.hardfault_body Sample.sentinel
    Sample.temperature_to_TEMF Sample.TEMF_to_temperature
    25 0 256 Sample.start = Returned 25 Sample.start.
Proof. reflexivity. Qed.

Example sample_call_minus_one :
  call_Get_Temperature Sample.hardfault_body Sample.sentinel
    Sample.temperature_to_TEMF Sample.TEMF_to_temperature
    25 0 (-1) Sample.start =
    Returned nan {| hardfault_calls := 1; env := true |}.
Proof. reflexivity. Qed.

Example sample_NaN_input :
  Sample.Get_Temperature nan 0 6 Sample.start = Returned nan Sample.start.
Proof. reflexivity. Qed.

Lemma Get_Temperature_compensates_witness :
  exists t : ThermocoupleType,
    of_ordinal 6 = Some t /\ ordinal t = 6%Z /\
    exists e r : float,
      result (Sample.temperature_to_TEMF t 25) Sample.start = Some e /\
      result (Sample.TEMF_to_temperature t (0 + e)) Sample.start = Some r /\
      result (Sample.Get_Temperature 25 0 6) Sample.start = Some r.
Proof.
  apply (Get_Temperature_compensates Sample.hardfault_body Sample.sentinel
           Sample.exp Sample.table 25 0 6 Sample.start).
  lia.
Defined.



Lemma selector_is_uint8_witness :
  (known_selector 200 = false <-> 13 <= 200 <= 255)%Z /\
  (of_ordinal 200 = None <-> 13 <= 200 <= 255)%Z.
Proof.
  apply (proj2 (proj2 selector_is_uint8) 200%Z).
  unfold is_uint8. lia.
Defined.

End SampleRuns.

(** ** Further facts the header fixes *)

Section HeaderFacts.

(** X1: decoding a selector is the exact inverse of the enumeration's
    numbering: a selector value stands for type [t] if and only if it is
    the constant of [t]. *)
Theorem of_ordinal_iff_ordinal (u : Z) (t : ThermocoupleType) :
  of_ordinal u = Some t <-> ordinal t = u.
Proof.
  split.
  - intros Hsome. apply (of_ordinal_Some_range u t Hsome).
  - intros Ho. subst u. apply of_ordinal_ordinal.
Qed.

(** X2: the [uint8_t] parameter keeps the low 8 bits of the argument.
    Arguments that differ by a multiple of 256 reach the dispatcher as the
    same selector, so an argument 256*k + (constant of [t]) selects [t],
    and an argument arrives as a known selector exactly when its residue
    modulo 256 is at most 12. *)
Theorem uint8_of_int_wraps (arg k : Z) :
  uint8_of_int (arg + 256 * k) = uint8_of_int arg /\
  uint8_of_int (uint8_of_int arg) = uint8_of_int arg /\
  (forall t : ThermocoupleType,
      of_ordinal (uint8_of_int (ordinal t + 256 * k)) = Some t) /\
  (known_selector (uint8_of_int arg) = true <-> arg mod 256 <= 12).
Proof.
  assert (Hwrap : forall a, uint8_of_int (a + 256 * k) = uint8_of_int a).
  { intros a. unfold uint8_of_int. change (2 ^ 8) with 256.
    rewrite (Z.mul_comm 256 k). apply Z.mod_add. lia. }
  split; [apply Hwrap |].
  split.
  { unfold uint8_of_int. apply Z.mod_mod. change (2 ^ 8) with 256. lia. }
  split.
  - intros t. rewrite Hwrap. unfold uint8_of_int.
    rewrite Z.mod_small; [apply of_ordinal_ordinal |].
    change (2 ^ 8) with 256. destruct t; simpl; lia.
  - rewrite known_selector_small. unfold uint8_of_int.
    change (2 ^ 8) with 256.
    pose proof (Z.mod_pos_bound arg 256 ltac:(lia)) as Hb. lia.
Qed.

(** X3: every documented range is a proper interval.  For each type the
    temperature range and the TEMF range are non-empty, 0 degrees lies in
    the temperature range, the span the TEMF range is given for lies inside
    the temperature range and ends at its upper end, and the lower TEMF end
    has the sign of the temperature it is given for. *)
Theorem documented_ranges_well_formed (t : ThermocoupleType) :
  Documented.t_min (Documented.range t) < Documented.t_max (Documented.range t) /\
  Documented.temf_min (Documented.range t) < Documented.temf_max (Documented.range t) /\
  Documented.t_min (Documented.range t) <= 0 <= Documented.t_max (Documented.range t) /\
  Documented.t_min (Documented.range t) <= Documented.temf_t_min (Documented.range t) /\
  Documented.temf_t_min (Documented.range t) < Documented.temf_t_max (Documented.range t) /\
  Documented.temf_t_max (Documented.range t) = Documented.t_max (Documented.range t) /\
  Z.sgn (Documented.temf_min (Documented.range t)) =
    Z.sgn (Documented.temf_t_min (Documented.range t)).
Proof.
  destruct t; simpl; repeat split; lia.
Qed.


End HeaderFacts.
